(** * verify-dist: the post-build check of the prebuilt [dist] layout

    A shallow embedding of [scripts/verify-dist.mjs] and the properties of
    its observable behaviour (exit status, standard output, error stream,
    file-system operations performed).

    The script is an [async] Node program.  Every [await] in it is
    sequential, so a promise is modelled as a computation in a state and
    exception monad over the process state: a resolved promise is a
    returned value, a rejected promise is a thrown exception.

    The environment (Node's [fs] and [path] modules, [console], [process])
    is modelled in the first half of the file; the script itself is
    translated line by line in [Module VerifyDist]. *)

From Stdlib Require Import String Ascii List ZArith Bool Arith Lia.
From Stdlib Require Import Permutation.
Import ListNotations.
Local Open Scope list_scope.
Local Open Scope string_scope.

(* ================================================================== *)
(** ** JavaScript strings *)

Module JsString.

(** [String.prototype.endsWith(searchString)] with the default end
    position: the search string must fit, and the last
    [length searchString] code units of [s] must equal it.  File names
    are compared unit by unit; no case folding or normalisation takes
    place.  (A name is held here as its sequence of bytes; [".js"] is
    ASCII, so matching it as a suffix gives the same answer on bytes as
    on UTF-16 code units.) *)
Definition endsWith (s searchString : string) : bool :=
  let len := String.length s in
  let searchLength := String.length searchString in
  if (searchLength <=? len)%nat
  then String.eqb (substring (len - searchLength) searchLength s) searchString
  else false.

(** [String.prototype.includes(searchString)]: whether the search
    string occurs somewhere in [s]. *)
Fixpoint includes (s searchString : string) : bool :=
  if prefix searchString s then true
  else match s with
       | EmptyString => false
       | String _ rest => includes rest searchString
       end.

(** [Array.prototype.some]. *)
Definition some {A : Type} (p : A -> bool) (xs : list A) : bool :=
  existsb p xs.

End JsString.

(* ================================================================== *)
(** ** Paths *)

Module Path.

(** [path.resolve(base, name)] on POSIX for an absolute, normalised
    [base] and a plain relative [name]: the two are joined with one
    separator; the root directory already ends in its separator. *)
Definition resolve (base name : string) : string :=
  if String.eqb base "/" then "/" ++ name else base ++ "/" ++ name.

(** The components of a path, as the kernel's path walk sees them:
    separators split, empty components are skipped. *)
Fixpoint components_from (cur : string) (p : string) : list string :=
  match p with
  | EmptyString =>
      match cur with EmptyString => [] | _ => [cur] end
  | String c rest =>
      if Ascii.eqb c "/"%char
      then match cur with
           | EmptyString => components_from EmptyString rest
           | _ => cur :: components_from EmptyString rest
           end
      else components_from (cur ++ String c EmptyString) rest
  end.

Definition components (p : string) : list string :=
  components_from EmptyString p.

End Path.

(* ================================================================== *)
(** ** The file system *)

Module Fs.

(** What a failed system call reports. *)
Inductive errno : Type := ENOENT | ENOTDIR | EACCES.

(** The permissions of a directory that matter to the calls used:
    reading its listing, and searching it (resolving a name in it). *)
Record perms : Type := { can_read : bool; can_search : bool }.

Definition rwx : perms := {| can_read := true; can_search := true |}.

(** A file-system tree.  The entries of a directory are kept in the
    order in which a directory read enumerates them. *)
#[warnings="-register-all"] Inductive node : Type :=
| File : node
| Dir : perms -> list (string * node) -> node.

Fixpoint entry (name : string) (es : list (string * node)) : option node :=
  match es with
  | [] => None
  | (n, c) :: rest => if String.eqb n name then Some c else entry name rest
  end.

(** Path resolution from the root: every directory on the way must be
    searchable, nothing can be resolved beneath a regular file. *)
Fixpoint walk (n : node) (names : list string) : errno + node :=
  match names with
  | [] => inr n
  | name :: rest =>
      match n with
      | File => inl ENOTDIR
      | Dir p es =>
          if can_search p
          then match entry name es with
               | Some c => walk c rest
               | None => inl ENOENT
               end
          else inl EACCES
      end
  end.

Definition lookup (root : node) (path : string) : errno + node :=
  walk root (Path.components path).

(** [access(path, F_OK)]: succeeds exactly when [path] resolves,
    whatever it resolves to. *)
Definition access (root : node) (path : string) : errno + unit :=
  match lookup root path with
  | inl e => inl e
  | inr _ => inr tt
  end.

(** [readdir(path)]: the names of the entries of a readable directory,
    in enumeration order. *)
Definition readdir (root : node) (path : string) : errno + list string :=
  match lookup root path with
  | inl e => inl e
  | inr File => inl ENOTDIR
  | inr (Dir p es) => if can_read p then inr (map fst es) else inl EACCES
  end.

Definition accessible (root : node) (path : string) : bool :=
  match access root path with inr _ => true | inl _ => false end.

(** The operations a program performed on the file system, in order. *)
Inductive op : Type :=
| OpAccess : string -> op
| OpReaddir : string -> op.

End Fs.

(* ================================================================== *)
(** ** The Node process *)

Module Node.

(** A thrown value: an [Error] made by the program with [new Error(msg)],
    or a system error raised by a failed [fs] call. *)
Inductive exn : Type :=
| JsError : string -> exn
| SystemError : Fs.errno -> string -> string -> exn.

Definition errno_code (e : Fs.errno) : string :=
  match e with
  | Fs.ENOENT => "ENOENT: no such file or directory"
  | Fs.ENOTDIR => "ENOTDIR: not a directory"
  | Fs.EACCES => "EACCES: permission denied"
  end.

(** [error.message]. *)
Definition message (e : exn) : string :=
  match e with
  | JsError msg => msg
  | SystemError code syscall path =>
      errno_code code ++ ", " ++ syscall ++ " '" ++ path ++ "'"
  end.

(** The state of one process run: the file system it sees, its working
    directory, the lines written so far by [console.log] (standard
    output) and [console.error] (error stream), one element per call,
    [process.exitCode] ([None] while it is [undefined]), and the
    file-system operations performed so far. *)
Record World : Type := {
  fs : Fs.node;
  cwd : string;
  stdout : list string;
  stderr : list string;
  exitCode : option Z;
  trace : list Fs.op
}.

(** A fresh process started in directory [dir] of file system [root]. *)
Definition boot (root : Fs.node) (dir : string) : World :=
  {| fs := root; cwd := dir; stdout := []; stderr := [];
     exitCode := None; trace := [] |}.

(** The status the process exits with once nothing is left to run. *)
Definition exit_status (w : World) : Z :=
  match exitCode w with
  | Some n => n
  | None => 0%Z
  end.

(** How a promise settles. *)
Inductive settled (A : Type) : Type :=
| Resolved : A -> settled A
| Rejected : exn -> settled A.
Arguments Resolved {A} _.
Arguments Rejected {A} _.

Definition Promise (A : Type) : Type := World -> settled A * World.

Definition ret {A : Type} (a : A) : Promise A :=
  fun w => (Resolved a, w).

(** [await] and sequencing: a rejection skips the rest. *)
Definition bind {A B : Type} (m : Promise A) (k : A -> Promise B) : Promise B :=
  fun w =>
    match m w with
    | (Resolved a, w') => k a w'
    | (Rejected e, w') => (Rejected e, w')
    end.

Definition throw {A : Type} (e : exn) : Promise A :=
  fun w => (Rejected e, w).

(** [try { m } catch (e) { h e }], and [m.catch(h)]. *)
Definition catch {A : Type} (m : Promise A) (h : exn -> Promise A) : Promise A :=
  fun w =>
    match m w with
    | (Resolved a, w') => (Resolved a, w')
    | (Rejected e, w') => h e w'
    end.

Definition record (o : Fs.op) (w : World) : World :=
  {| fs := fs w; cwd := cwd w; stdout := stdout w; stderr := stderr w;
     exitCode := exitCode w; trace := trace w ++ [o] |}.

(** [fs.promises.access(path)]. *)
Definition fs_access (path : string) : Promise unit :=
  fun w =>
    match Fs.access (fs w) path with
    | inr u => (Resolved u, record (Fs.OpAccess path) w)
    | inl e => (Rejected (SystemError e "access" path),
                record (Fs.OpAccess path) w)
    end.

(** [fs.promises.readdir(path)]. *)
Definition fs_readdir (path : string) : Promise (list string) :=
  fun w =>
    match Fs.readdir (fs w) path with
    | inr names => (Resolved names, record (Fs.OpReaddir path) w)
    | inl e => (Rejected (SystemError e "scandir" path),
                record (Fs.OpReaddir path) w)
    end.

(** [path.resolve(".")]: the working directory of the process. *)
Definition resolve_here : Promise string :=
  fun w => (Resolved (cwd w), w).

(** [console.log(line)]. *)
Definition console_log (line : string) : Promise unit :=
  fun w =>
    (Resolved tt,
     {| fs := fs w; cwd := cwd w; stdout := stdout w ++ [line];
        stderr := stderr w; exitCode := exitCode w; trace := trace w |}).

(** [console.error(line)]. *)
Definition console_error (line : string) : Promise unit :=
  fun w =>
    (Resolved tt,
     {| fs := fs w; cwd := cwd w; stdout := stdout w;
        stderr := stderr w ++ [line]; exitCode := exitCode w;
        trace := trace w |}).

(** [process.exitCode = n]. *)
Definition set_exitCode (n : Z) : Promise unit :=
  fun w =>
    (Resolved tt,
     {| fs := fs w; cwd := cwd w; stdout := stdout w; stderr := stderr w;
        exitCode := Some n; trace := trace w |}).

(** [for (const x of xs) { body x }]. *)
Fixpoint for_of {A : Type} (xs : list A) (body : A -> Promise unit) : Promise unit :=
  match xs with
  | [] => ret tt
  | x :: rest => bind (body x) (fun _ => for_of rest body)
  end.

(** A computation that leaves the file system and the working directory
    of the process as they are, however it settles. *)
Definition read_only {A : Type} (m : Promise A) : Prop :=
  forall w, fs (snd (m w)) = fs w /\ cwd (snd (m w)) = cwd w.

Declare Scope promise_scope.
Delimit Scope promise_scope with promise.
Notation "'let*' x ':=' m 'in' k" := (bind m (fun x => k))
  (at level 61, x name, m at next level, right associativity) : promise_scope.
Notation "m ';;' k" := (bind m (fun _ => k))
  (at level 61, right associativity) : promise_scope.

End Node.

(* ================================================================== *)
(** ** The script *)

Module VerifyDist.
Import Node.
Local Open Scope promise_scope.

Definition ensureExists (path description : string) : Promise unit :=
  catch (fs_access path)
        (fun _ => throw (JsError ("Missing " ++ description ++ " at " ++ path))).

Definition main : Promise unit :=
  let* root := resolve_here in
  let distDir := Path.resolve root "dist" in
  let htmlPath := Path.resolve distDir "index.html" in
  ensureExists distDir "dist directory" ;;
  ensureExists htmlPath "dist/index.html" ;;
  let assetsDir := Path.resolve distDir "assets" in
  let* assets := catch (fs_readdir assetsDir) (fun _ => ret []) in
  (if negb (JsString.some (fun file => JsString.endsWith file ".js") assets)
   then throw (JsError "dist/assets is missing bundled JavaScript output")
   else ret tt) ;;
  console_log "Prebuilt dist assets detected:" ;;
  for_of assets (fun asset => console_log ("  - " ++ asset)).

(** The module body: [main().catch(...)]. *)
Definition script : Promise unit :=
  catch main
        (fun error => console_error (message error) ;; set_exitCode 1).

(** One run of the script, to completion. *)
Definition run (w : World) : World := snd (script w).

(** The paths the script computes, as functions of the process state. *)
Definition distDir (w : World) : string := Path.resolve (cwd w) "dist".
Definition htmlPath (w : World) : string := Path.resolve (distDir w) "index.html".
Definition assetsDir (w : World) : string := Path.resolve (distDir w) "assets".

(** The value bound to [assets]: the listing, or [[]] when the directory
    read rejects. *)
Definition listed (w : World) : list string :=
  match Fs.readdir (fs w) (assetsDir w) with
  | inr names => names
  | inl _ => []
  end.

(** The condition tested on [assets]. *)
Definition has_js (assets : list string) : bool :=
  JsString.some (fun file => JsString.endsWith file ".js") assets.

(** The three messages a run can fail with. *)
Definition missing (description path : string) : string :=
  "Missing " ++ description ++ " at " ++ path.
Definition assets_message : string :=
  "dist/assets is missing bundled JavaScript output".

(** The state a run that fails leaves behind: [ops] were performed,
    [msg] went to the error stream, the exit code was set. *)
Definition failed (w : World) (ops : list Fs.op) (msg : string) : World :=
  {| fs := fs w; cwd := cwd w; stdout := stdout w;
     stderr := stderr w ++ [msg]; exitCode := Some 1%Z;
     trace := trace w ++ ops |}.

(** The state a run that passes leaves behind. *)
Definition summary (assets : list string) : list string :=
  "Prebuilt dist assets detected:" :: map (fun asset => ("  - " ++ asset)%string) assets.

Definition passed (w : World) (assets : list string) : World :=
  {| fs := fs w; cwd := cwd w; stdout := stdout w ++ summary assets;
     stderr := stderr w; exitCode := exitCode w;
     trace := trace w ++ [Fs.OpAccess (distDir w); Fs.OpAccess (htmlPath w);
                          Fs.OpReaddir (assetsDir w)] |}.

End VerifyDist.

(* ================================================================== *)
(** ** Working directories used as examples

    Each is a whole tree; the process runs in [/work]. *)

Module Scenarios.
Import Fs.

Definition here : string := "/work".

Definition work (entries : list (string * node)) : node :=
  Dir rwx [("work", Dir rwx entries)].

Definition unreadable : perms := {| can_read := false; can_search := true |}.
Definition unsearchable : perms := {| can_read := true; can_search := false |}.

(** A: no [dist] at all (so no entry file and no assets either). *)
Definition no_dist : node := work [].

(** B: no entry file, but a bundled script. *)
Definition no_html : node :=
  work [("dist", Dir rwx [("assets", Dir rwx [("app.js", File)])])].

(** C: entry file, no assets directory. *)
Definition no_assets : node :=
  work [("dist", Dir rwx [("index.html", File)])].

(** D: only a style sheet among the assets. *)
Definition only_css : node :=
  work [("dist", Dir rwx [("index.html", File);
                          ("assets", Dir rwx [("style.css", File)])])].

(** E: a complete build. *)
Definition complete : node :=
  work [("dist", Dir rwx [("index.html", File);
                          ("assets", Dir rwx [("main.abc123.js", File);
                                              ("main.abc123.css", File)])])].

(** A complete build whose assets directory may not be read. *)
Definition unlistable : node :=
  work [("dist", Dir rwx [("index.html", File);
                          ("assets", Dir unreadable [("app.js", File)])])].

(** [assets] is a regular file. *)
Definition assets_is_file : node :=
  work [("dist", Dir rwx [("index.html", File); ("assets", File)])].

(** A complete build in a working directory that may not be searched. *)
Definition sealed : node :=
  Dir rwx [("work",
            Dir unsearchable
                [("dist", Dir rwx [("index.html", File);
                                   ("assets", Dir rwx [("app.js", File)])])])].

(** Names that differ from the suffix in case, or continue after it. *)
Definition near_misses : node :=
  work [("dist", Dir rwx [("index.html", File);
                          ("assets", Dir rwx [("Main.JS", File);
                                              ("view.jsx", File)])])].

(** [dist] is a regular file. *)
Definition dist_is_file : node := work [("dist", File)].

(** [index.html] is a directory. *)
Definition html_is_dir : node :=
  work [("dist", Dir rwx [("index.html", Dir rwx []);
                          ("assets", Dir rwx [("app.js", File)])])].

(** The only script-named asset is a subdirectory. *)
Definition js_is_dir : node :=
  work [("dist", Dir rwx [("index.html", File);
                          ("assets", Dir rwx [("bundle.js", Dir rwx [])])])].

(** The only asset is a hidden entry named by the suffix alone. *)
Definition hidden_js : node :=
  work [("dist", Dir rwx [("index.html", File);
                          ("assets", Dir rwx [(".js", File)])])].

(** The complete build, its assets enumerated the other way round. *)
Definition complete_swapped : node :=
  work [("dist", Dir rwx [("index.html", File);
                          ("assets", Dir rwx [("main.abc123.css", File);
                                              ("main.abc123.js", File)])])].

(** A build with the bundled script alone. *)
Definition only_js : node :=
  work [("dist", Dir rwx [("index.html", File);
                          ("assets", Dir rwx [("main.abc123.js", File)])])].

(** The complete build, its [dist] directly in the root directory and
    other things beside it. *)
Definition complete_at_root : node :=
  Dir rwx [("etc", Dir rwx [("passwd", File)]);
           ("dist", Dir rwx [("index.html", File);
                             ("assets", Dir rwx [("main.abc123.js", File);
                                                 ("main.abc123.css", File)])])].

End Scenarios.

(* ================================================================== *)
(** ** Facts about strings *)

Module JsStringFacts.
Import JsString.

Lemma length_app (a b : string) :
  String.length (a ++ b) = String.length a + String.length b.
Proof.
  induction a as [|c a IH]; simpl; [reflexivity | now rewrite IH].
Qed.

Lemma substring_whole (s : string) : substring 0 (String.length s) s = s.
Proof.
  induction s as [|c s IH]; simpl; [reflexivity | now rewrite IH].
Qed.

Lemma substring_after (p t : string) :
  substring (String.length p) (String.length t) (p ++ t) = t.
Proof.
  induction p as [|c p IH]; simpl; [apply substring_whole | exact IH].
Qed.

Lemma substring_cut (s : string) :
  forall n, n <= String.length s ->
    s = substring 0 n s ++ substring n (String.length s - n) s.
Proof.
  induction s as [|c s IH]; intros [|n] Hn; simpl in *.
  - reflexivity.
  - lia.
  - now rewrite substring_whole.
  - f_equal. apply IH. lia.
Qed.

(** [endsWith] holds exactly of the strings that are some prefix
    followed by the search string. *)
Lemma endsWith_iff (s t : string) :
  endsWith s t = true <-> exists p, s = p ++ t.
Proof.
  unfold endsWith. split.
  - destruct (Nat.leb_spec (String.length t) (String.length s)) as [Hle|Hlt];
      [|discriminate].
    intros H. apply String.eqb_eq in H.
    exists (substring 0 (String.length s - String.length t) s).
    assert (C := substring_cut s (String.length s - String.length t)).
    replace (String.length s - (String.length s - String.length t))
      with (String.length t) in C by lia.
    rewrite H in C. apply C. lia.
  - intros [p ->]. rewrite length_app.
    replace (String.length t <=? String.length p + String.length t)%nat
      with true by (symmetry; apply Nat.leb_le; lia).
    replace (String.length p + String.length t - String.length t)
      with (String.length p) by lia.
    rewrite substring_after. apply String.eqb_refl.
Qed.

Lemma substring_before (t b : string) :
  substring 0 (String.length t) (t ++ b) = t.
Proof.
  induction t as [|c t IH]; simpl.
  - destruct b; reflexivity.
  - now rewrite IH.
Qed.

Lemma includes_prefix (s t : string) :
  prefix t s = true -> includes s t = true.
Proof.
  intros H. destruct s; cbn -[prefix]; rewrite H; reflexivity.
Qed.

Lemma includes_infix (a t b : string) : includes (a ++ t ++ b) t = true.
Proof.
  induction a as [|c a IH].
  - apply includes_prefix, prefix_correct. exact (substring_before t b).
  - cbn -[prefix]. rewrite IH. now destruct (prefix t (String c (a ++ t ++ b))).
Qed.

Lemma some_iff {A : Type} (p : A -> bool) (xs : list A) :
  some p xs = true <-> exists x, In x xs /\ p x = true.
Proof. unfold some. apply existsb_exists. Qed.

End JsStringFacts.

(* ================================================================== *)
(** ** Facts about paths and the file system *)

Module PathFacts.
Import Path.

Lemma components_from_sep (a : string) :
  forall cur b,
    components_from cur (a ++ String "/" b)
    = (components_from cur a ++ components b)%list.
Proof.
  induction a as [|c a IH]; intros cur b; simpl.
  - destruct cur; reflexivity.
  - destruct (Ascii.eqb c "/"); destruct cur; simpl; rewrite IH; reflexivity.
Qed.

(** Resolving a name against a base appends the name's components to
    the base's. *)
Lemma components_resolve (base name : string) :
  components (resolve base name) = (components base ++ components name)%list.
Proof.
  unfold resolve. destruct (String.eqb_spec base "/") as [->|_].
  - reflexivity.
  - change (base ++ "/" ++ name) with (base ++ String "/" name).
    apply components_from_sep.
Qed.

End PathFacts.

Module FsFacts.
Import Fs.

Lemma walk_app (l1 l2 : list string) :
  forall n,
    walk n (l1 ++ l2)
    = match walk n l1 with
      | inr m => walk m l2
      | inl e => inl e
      end.
Proof.
  induction l1 as [|x l1 IH]; intros n; simpl; [reflexivity|].
  destruct n as [|p es]; [reflexivity|].
  destruct (can_search p); [|reflexivity].
  destruct (entry x es); [apply IH | reflexivity].
Qed.

Lemma lookup_resolve (root : node) (base name : string) :
  lookup root (Path.resolve base name)
  = match lookup root base with
    | inr m => walk m (Path.components name)
    | inl e => inl e
    end.
Proof.
  unfold lookup. rewrite PathFacts.components_resolve. apply walk_app.
Qed.

(** Nothing resolves beneath a regular file. *)
Lemma beneath_file (root : node) (base name : string) :
  lookup root base = inr File ->
  Path.components name <> [] ->
  accessible root (Path.resolve base name) = false.
Proof.
  intros Hb Hn. unfold accessible, access. rewrite lookup_resolve, Hb.
  destruct (Path.components name); [contradiction | reflexivity].
Qed.

(** Nothing resolves beneath a path that does not resolve. *)
Lemma beneath_missing (root : node) (base name : string) :
  accessible root base = false ->
  accessible root (Path.resolve base name) = false.
Proof.
  unfold accessible, access. rewrite lookup_resolve.
  destruct (lookup root base); [reflexivity | discriminate].
Qed.

Lemma accessible_iff (root : node) (path : string) :
  accessible root path = true <-> exists n, lookup root path = inr n.
Proof.
  unfold accessible, access. destruct (lookup root path) as [e|n]; split.
  - discriminate.
  - intros [m H]; discriminate.
  - eauto.
  - reflexivity.
Qed.

End FsFacts.

(* ================================================================== *)
(** ** Facts about promises *)

Module NodeFacts.
Import Node.

Lemma read_only_ret {A : Type} (a : A) : read_only (ret a).
Proof. intros w. split; reflexivity. Qed.

Lemma read_only_throw {A : Type} (e : exn) : read_only (@throw A e).
Proof. intros w. split; reflexivity. Qed.

Lemma read_only_bind {A B : Type} (m : Promise A) (k : A -> Promise B) :
  read_only m -> (forall a, read_only (k a)) -> read_only (bind m k).
Proof.
  intros Hm Hk w. unfold bind. specialize (Hm w).
  destruct (m w) as [[a|e] w']; cbn in *.
  - destruct Hm as [M1 M2], (Hk a w') as [H1 H2]. split; congruence.
  - exact Hm.
Qed.

Lemma read_only_catch {A : Type} (m : Promise A) (h : exn -> Promise A) :
  read_only m -> (forall e, read_only (h e)) -> read_only (catch m h).
Proof.
  intros Hm Hh w. unfold catch. specialize (Hm w).
  destruct (m w) as [[a|e] w']; cbn in *.
  - exact Hm.
  - destruct Hm as [M1 M2], (Hh e w') as [H1 H2]. split; congruence.
Qed.

Lemma read_only_fs_access (path : string) : read_only (fs_access path).
Proof.
  intros w. unfold fs_access. destruct (Fs.access (fs w) path); split; reflexivity.
Qed.

Lemma read_only_fs_readdir (path : string) : read_only (fs_readdir path).
Proof.
  intros w. unfold fs_readdir. destruct (Fs.readdir (fs w) path); split; reflexivity.
Qed.

Lemma read_only_resolve_here : read_only resolve_here.
Proof. intros w. split; reflexivity. Qed.

Lemma read_only_console_log (line : string) : read_only (console_log line).
Proof. intros w. split; reflexivity. Qed.

Lemma read_only_console_error (line : string) : read_only (console_error line).
Proof. intros w. split; reflexivity. Qed.

Lemma read_only_set_exitCode (n : Z) : read_only (set_exitCode n).
Proof. intros w. split; reflexivity. Qed.

Lemma read_only_for_of {A : Type} (xs : list A) (body : A -> Promise unit) :
  (forall x, read_only (body x)) -> read_only (for_of xs body).
Proof.
  intros Hb. induction xs as [|x xs IH]; simpl.
  - apply read_only_ret.
  - apply read_only_bind; [apply Hb | intros _; exact IH].
Qed.

Create HintDb read_only.
#[export] Hint Resolve read_only_ret read_only_throw read_only_bind
  read_only_catch read_only_fs_access read_only_fs_readdir
  read_only_resolve_here read_only_console_log read_only_console_error
  read_only_set_exitCode read_only_for_of : read_only.

End NodeFacts.

(* ================================================================== *)
(** ** Facts about the script *)

Module VerifyDistFacts.
Import Node NodeFacts VerifyDist.

Lemma for_of_console_log (f : string -> string) (xs : list string) :
  forall w,
    for_of xs (fun x => console_log (f x)) w
    = (Resolved tt,
       {| fs := fs w; cwd := cwd w; stdout := (stdout w ++ map f xs)%list;
          stderr := stderr w; exitCode := exitCode w; trace := trace w |}).
Proof.
  induction xs as [|x xs IH]; intros w; simpl.
  - unfold ret. rewrite app_nil_r. destruct w; reflexivity.
  - unfold bind at 1. unfold console_log at 1. rewrite IH. simpl.
    rewrite <- app_assoc. reflexivity.
Qed.

Lemma ensureExists_ok (path description : string) (w : World) :
  Fs.accessible (fs w) path = true ->
  ensureExists path description w
  = (Resolved tt, record (Fs.OpAccess path) w).
Proof.
  unfold Fs.accessible, ensureExists, catch, fs_access.
  destruct (Fs.access (fs w) path) as [e|[]]; [discriminate | reflexivity].
Qed.

Lemma ensureExists_missing (path description : string) (w : World) :
  Fs.accessible (fs w) path = false ->
  ensureExists path description w
  = (Rejected (JsError (missing description path)),
     record (Fs.OpAccess path) w).
Proof.
  unfold Fs.accessible, ensureExists, catch, fs_access.
  destruct (Fs.access (fs w) path) as [e|[]]; [reflexivity | discriminate].
Qed.

(** [fs.readdir(assetsDir).catch(() => [])] always resolves. *)
Lemma readdir_or_empty (path : string) (w : World) :
  catch (fs_readdir path) (fun _ => ret []) w
  = (Resolved match Fs.readdir (fs w) path with
              | inr names => names
              | inl _ => []
              end,
     record (Fs.OpReaddir path) w).
Proof.
  unfold catch, fs_readdir.
  destruct (Fs.readdir (fs w) path); reflexivity.
Qed.

(** Every step of the script only reads the file system. *)

Lemma read_only_ensureExists (path description : string) :
  read_only (ensureExists path description).
Proof. unfold ensureExists. auto with read_only. Qed.

Lemma read_only_main : read_only main.
Proof.
  unfold main.
  repeat first
    [ apply NodeFacts.read_only_bind; [|intro]
    | apply NodeFacts.read_only_catch; [|intro]
    | apply NodeFacts.read_only_for_of; intro
    | apply read_only_ensureExists
    | match goal with |- read_only (if ?b then _ else _) => destruct b end
    | solve [auto with read_only] ].
Qed.

Lemma read_only_script : read_only script.
Proof.
  unfold script. apply NodeFacts.read_only_catch; [exact read_only_main|].
  intros e. auto with read_only.
Qed.

(** How [main] settles: the four cases, decided in this order. *)

Lemma main_no_dist (w : World) :
  Fs.accessible (fs w) (distDir w) = false ->
  main w = (Rejected (JsError (missing "dist directory" (distDir w))),
            record (Fs.OpAccess (distDir w)) w).
Proof.
  intros H. unfold main, bind, resolve_here. cbv beta iota zeta.
  fold (distDir w). rewrite (ensureExists_missing _ _ _ H). reflexivity.
Qed.

Lemma main_no_html (w : World) :
  Fs.accessible (fs w) (distDir w) = true ->
  Fs.accessible (fs w) (htmlPath w) = false ->
  main w = (Rejected (JsError (missing "dist/index.html" (htmlPath w))),
            record (Fs.OpAccess (htmlPath w))
              (record (Fs.OpAccess (distDir w)) w)).
Proof.
  intros Hd Hh. unfold main, bind, resolve_here. cbv beta iota zeta.
  fold (distDir w). fold (htmlPath w).
  rewrite (ensureExists_ok _ _ _ Hd).
  rewrite (ensureExists_missing _ _ (record _ w) Hh). reflexivity.
Qed.

Lemma main_no_js (w : World) :
  Fs.accessible (fs w) (distDir w) = true ->
  Fs.accessible (fs w) (htmlPath w) = true ->
  has_js (listed w) = false ->
  main w = (Rejected (JsError assets_message),
            record (Fs.OpReaddir (assetsDir w))
              (record (Fs.OpAccess (htmlPath w))
                 (record (Fs.OpAccess (distDir w)) w))).
Proof.
  intros Hd Hh Hjs. unfold main, bind, resolve_here. cbv beta iota zeta.
  fold (distDir w). fold (htmlPath w). fold (assetsDir w).
  rewrite (ensureExists_ok _ _ _ Hd).
  rewrite (ensureExists_ok _ _ (record _ w) Hh).
  rewrite readdir_or_empty.
  change (fs (record _ (record _ w))) with (fs w). fold (listed w).
  fold (has_js (listed w)). rewrite Hjs. reflexivity.
Qed.

Lemma main_ok (w : World) :
  Fs.accessible (fs w) (distDir w) = true ->
  Fs.accessible (fs w) (htmlPath w) = true ->
  has_js (listed w) = true ->
  main w = (Resolved tt, passed w (listed w)).
Proof.
  intros Hd Hh Hjs. unfold main, bind, resolve_here. cbv beta iota zeta.
  fold (distDir w). fold (htmlPath w). fold (assetsDir w).
  rewrite (ensureExists_ok _ _ _ Hd).
  rewrite (ensureExists_ok _ _ (record _ w) Hh).
  rewrite readdir_or_empty.
  change (fs (record _ (record _ w))) with (fs w). fold (listed w).
  fold (has_js (listed w)). rewrite Hjs.
  cbn [negb]. unfold ret. cbv beta iota.
  unfold console_log at 1. cbv beta iota.
  rewrite (for_of_console_log (fun asset => "  - " ++ asset)).
  unfold passed, summary. simpl. rewrite <- !app_assoc. reflexivity.
Qed.

(** How a run ends, case by case. *)

Lemma run_no_dist (w : World) :
  Fs.accessible (fs w) (distDir w) = false ->
  run w = failed w [Fs.OpAccess (distDir w)]
                   (missing "dist directory" (distDir w)).
Proof.
  intros H. unfold run, script, catch. rewrite (main_no_dist _ H).
  reflexivity.
Qed.

Lemma run_no_html (w : World) :
  Fs.accessible (fs w) (distDir w) = true ->
  Fs.accessible (fs w) (htmlPath w) = false ->
  run w = failed w [Fs.OpAccess (distDir w); Fs.OpAccess (htmlPath w)]
                   (missing "dist/index.html" (htmlPath w)).
Proof.
  intros Hd Hh. unfold run, script, catch. rewrite (main_no_html _ Hd Hh).
  unfold failed. simpl. rewrite <- !app_assoc. reflexivity.
Qed.

Lemma run_no_js (w : World) :
  Fs.accessible (fs w) (distDir w) = true ->
  Fs.accessible (fs w) (htmlPath w) = true ->
  has_js (listed w) = false ->
  run w = failed w [Fs.OpAccess (distDir w); Fs.OpAccess (htmlPath w);
                    Fs.OpReaddir (assetsDir w)]
                   assets_message.
Proof.
  intros Hd Hh Hjs. unfold run, script, catch.
  rewrite (main_no_js _ Hd Hh Hjs).
  unfold failed. simpl. rewrite <- !app_assoc. reflexivity.
Qed.

Lemma run_ok (w : World) :
  Fs.accessible (fs w) (distDir w) = true ->
  Fs.accessible (fs w) (htmlPath w) = true ->
  has_js (listed w) = true ->
  run w = passed w (listed w).
Proof.
  intros Hd Hh Hjs. unfold run, script, catch.
  rewrite (main_ok _ Hd Hh Hjs). reflexivity.
Qed.

End VerifyDistFacts.

(* ================================================================== *)
(** ** Properties of a run

    A run is [run (boot root dir)]: a fresh process started in directory
    [dir] of the file system [root]. *)

Import Node VerifyDist.
Import JsStringFacts FsFacts NodeFacts VerifyDistFacts.

(** A listing with an entry ending in [".js"] passes the test on [assets]. *)
Lemma has_js_intro (names : list string) (name : string) :
  In name names -> JsString.endsWith name ".js" = true -> has_js names = true.
Proof.
  intros Hin Hjs. apply some_iff. exists name. split; assumption.
Qed.

(** The test on [assets] holds exactly of the listings with a name that
    is some string followed by [".js"]. *)
Lemma has_js_iff (names : list string) :
  has_js names = true
  <-> exists name stem, In name names /\ name = stem ++ ".js".
Proof.
  unfold has_js. rewrite some_iff. split.
  - intros [name [Hin Hjs]]. apply endsWith_iff in Hjs as [stem ->].
    exists (stem ++ ".js"), stem. split; [exact Hin | reflexivity].
  - intros [name [stem [Hin ->]]]. exists (stem ++ ".js").
    split; [exact Hin | apply endsWith_iff; now exists stem].
Qed.

Lemma listed_readdir (w : World) (names : list string) :
  Fs.readdir (fs w) (assetsDir w) = inr names -> listed w = names.
Proof. unfold listed. now intros ->. Qed.

Lemma listed_unreadable (w : World) (e : Fs.errno) :
  Fs.readdir (fs w) (assetsDir w) = inl e -> listed w = [].
Proof. unfold listed. now intros ->. Qed.

(** C1.  In a working directory where [dist] and [dist/index.html] are
    present and the listing of [dist/assets] has at least one entry whose
    name ends in [".js"], the run exits with status 0, writes nothing to
    the error stream, and prints the header line followed by exactly one
    line per entry of the listing (whatever its name), in listing order,
    each as two spaces, a dash, a space and the name. *)
Theorem pass_prints_listing (root : Fs.node) (dir : string) (names : list string) :
  Fs.accessible root (distDir (boot root dir)) = true ->
  Fs.accessible root (htmlPath (boot root dir)) = true ->
  Fs.readdir root (assetsDir (boot root dir)) = inr names ->
  (exists name, In name names /\ JsString.endsWith name ".js" = true) ->
  exit_status (run (boot root dir)) = 0%Z
  /\ stdout (run (boot root dir))
     = "Prebuilt dist assets detected:"
       :: map (fun name => "  - " ++ name) names
  /\ length (stdout (run (boot root dir))) = S (length names)
  /\ stderr (run (boot root dir)) = [].
Proof.
  intros Hd Hh Hls [name [Hin Hjs]].
  assert (Hl : listed (boot root dir) = names) by now apply listed_readdir.
  rewrite (run_ok (boot root dir) Hd Hh);
    rewrite Hl; [|exact (has_js_intro _ _ Hin Hjs)].
  cbn. rewrite length_map. repeat split.
Qed.

Lemma pass_prints_listing_witness :
  exit_status (run (boot Scenarios.complete Scenarios.here)) = 0%Z
  /\ stdout (run (boot Scenarios.complete Scenarios.here))
     = ["Prebuilt dist assets detected:";
        "  - main.abc123.js"; "  - main.abc123.css"]
  /\ length (stdout (run (boot Scenarios.complete Scenarios.here))) = 3
  /\ stderr (run (boot Scenarios.complete Scenarios.here)) = [].
Proof.
  apply (pass_prints_listing Scenarios.complete Scenarios.here
           ["main.abc123.js"; "main.abc123.css"]).
  - reflexivity.
  - reflexivity.
  - reflexivity.
  - exists "main.abc123.js". split; [left; reflexivity | reflexivity].
Defined.

(** C2.  In a working directory where [dist] does not resolve (absent, or
    not reachable), the run fails: the exit status is not 0, the one line
    on the error stream is ["Missing dist directory at <path>"] with the
    resolved path of [dist] (so it mentions ["dist directory"]), nothing
    is printed to standard output, and the only file-system operation
    performed is the access check of [dist]. *)
Theorem missing_dist_fails (root : Fs.node) (dir : string) :
  Fs.accessible root (distDir (boot root dir)) = false ->
  exit_status (run (boot root dir)) <> 0%Z
  /\ stderr (run (boot root dir))
     = ["Missing dist directory at " ++ distDir (boot root dir)]
  /\ (forall line, In line (stderr (run (boot root dir))) ->
        JsString.includes line "dist directory" = true)
  /\ stdout (run (boot root dir)) = []
  /\ trace (run (boot root dir)) = [Fs.OpAccess (distDir (boot root dir))].
Proof.
  intros Hd. rewrite (run_no_dist (boot root dir) Hd). cbn.
  repeat split; try discriminate.
  intros line [<-|[]].
  exact (includes_infix "Missing " "dist directory"
           (" at " ++ distDir (boot root dir))).
Qed.

Lemma missing_dist_fails_witness :
  (exit_status (run (boot Scenarios.no_dist Scenarios.here)) <> 0%Z
   /\ stderr (run (boot Scenarios.no_dist Scenarios.here))
      = ["Missing dist directory at /work/dist"])
  /\ (exit_status (run (boot Scenarios.sealed Scenarios.here)) <> 0%Z
      /\ trace (run (boot Scenarios.sealed Scenarios.here))
         = [Fs.OpAccess "/work/dist"]).
Proof.
  split.
  - destruct (missing_dist_fails Scenarios.no_dist Scenarios.here)
      as (He & Hm & _); [reflexivity|].
    split; [exact He | exact Hm].
  - destruct (missing_dist_fails Scenarios.sealed Scenarios.here)
      as (He & _ & _ & _ & Ht); [reflexivity|].
    split; [exact He | exact Ht].
Defined.

(** C3.  In a working directory where [dist] resolves but
    [dist/index.html] does not, the run fails: the exit status is not 0
    and the one line on the error stream is
    ["Missing dist/index.html at <path>"] (so it mentions
    ["dist/index.html"]).  This holds whatever [dist/assets] contains: the
    assets directory is never read. *)
Theorem missing_html_fails (root : Fs.node) (dir : string) :
  Fs.accessible root (distDir (boot root dir)) = true ->
  Fs.accessible root (htmlPath (boot root dir)) = false ->
  exit_status (run (boot root dir)) <> 0%Z
  /\ stderr (run (boot root dir))
     = ["Missing dist/index.html at " ++ htmlPath (boot root dir)]
  /\ (forall line, In line (stderr (run (boot root dir))) ->
        JsString.includes line "dist/index.html" = true)
  /\ stdout (run (boot root dir)) = []
  /\ trace (run (boot root dir))
     = [Fs.OpAccess (distDir (boot root dir));
        Fs.OpAccess (htmlPath (boot root dir))].
Proof.
  intros Hd Hh. rewrite (run_no_html (boot root dir) Hd Hh). cbn.
  repeat split; try discriminate.
  intros line [<-|[]].
  exact (includes_infix "Missing " "dist/index.html"
           (" at " ++ htmlPath (boot root dir))).
Qed.

Lemma missing_html_fails_witness :
  Fs.readdir Scenarios.no_html "/work/dist/assets" = inr ["app.js"]
  /\ exit_status (run (boot Scenarios.no_html Scenarios.here)) <> 0%Z
  /\ stderr (run (boot Scenarios.no_html Scenarios.here))
     = ["Missing dist/index.html at /work/dist/index.html"]
  /\ trace (run (boot Scenarios.no_html Scenarios.here))
     = [Fs.OpAccess "/work/dist"; Fs.OpAccess "/work/dist/index.html"].
Proof.
  destruct (missing_html_fails Scenarios.no_html Scenarios.here)
    as (He & Hm & _ & _ & Ht); [reflexivity | reflexivity |].
  split; [reflexivity|]. split; [exact He|]. split; [exact Hm | exact Ht].
Defined.

(** C4.  In a working directory where [dist/index.html] is present and
    the assets directory cannot be read (it is absent, is not a directory,
    or may not be listed), the directory read is still attempted and its
    failure is turned into the empty listing; the run then fails with
    exactly the line ["dist/assets is missing bundled JavaScript output"]
    and a non-zero exit status.  What the user sees (standard output,
    error stream, exit status) is the same as for any working directory
    whose assets directory can be listed and has no entry ending in
    [".js"]. *)
Theorem unreadable_assets_as_empty
    (root : Fs.node) (dir : string) (e : Fs.errno)
    (root' : Fs.node) (dir' : string) (names : list string) :
  Fs.accessible root (distDir (boot root dir)) = true ->
  Fs.accessible root (htmlPath (boot root dir)) = true ->
  Fs.readdir root (assetsDir (boot root dir)) = inl e ->
  Fs.accessible root' (distDir (boot root' dir')) = true ->
  Fs.accessible root' (htmlPath (boot root' dir')) = true ->
  Fs.readdir root' (assetsDir (boot root' dir')) = inr names ->
  has_js names = false ->
  listed (boot root dir) = []
  /\ stderr (run (boot root dir))
     = ["dist/assets is missing bundled JavaScript output"]
  /\ exit_status (run (boot root dir)) <> 0%Z
  /\ trace (run (boot root dir))
     = [Fs.OpAccess (distDir (boot root dir));
        Fs.OpAccess (htmlPath (boot root dir));
        Fs.OpReaddir (assetsDir (boot root dir))]
  /\ stdout (run (boot root dir)) = stdout (run (boot root' dir'))
  /\ stderr (run (boot root dir)) = stderr (run (boot root' dir'))
  /\ exit_status (run (boot root dir)) = exit_status (run (boot root' dir')).
Proof.
  intros Hd Hh Hls Hd' Hh' Hls' Hjs'.
  assert (Hl : listed (boot root dir) = []) by exact (listed_unreadable (boot root dir) e Hls).
  assert (Hl' : listed (boot root' dir') = names) by exact (listed_readdir (boot root' dir') names Hls').
  rewrite (run_no_js (boot root dir) Hd Hh) by (rewrite Hl; reflexivity).
  rewrite (run_no_js (boot root' dir') Hd' Hh') by (rewrite Hl'; exact Hjs').
  cbn. repeat split; try assumption; discriminate.
Qed.

Lemma unreadable_assets_as_empty_witness :
  (stderr (run (boot Scenarios.no_assets Scenarios.here))
   = ["dist/assets is missing bundled JavaScript output"]
   /\ exit_status (run (boot Scenarios.no_assets Scenarios.here)) <> 0%Z)
  /\ (stderr (run (boot Scenarios.unlistable Scenarios.here))
      = stderr (run (boot Scenarios.only_css Scenarios.here))
      /\ exit_status (run (boot Scenarios.unlistable Scenarios.here))
         = exit_status (run (boot Scenarios.only_css Scenarios.here)))
  /\ stderr (run (boot Scenarios.assets_is_file Scenarios.here))
     = ["dist/assets is missing bundled JavaScript output"].
Proof.
  split; [|split].
  - destruct (unreadable_assets_as_empty
                Scenarios.no_assets Scenarios.here Fs.ENOENT
                Scenarios.only_css Scenarios.here ["style.css"]
                eq_refl eq_refl eq_refl eq_refl eq_refl eq_refl eq_refl)
      as (_ & Hm & He & _).
    split; [exact Hm | exact He].
  - destruct (unreadable_assets_as_empty
                Scenarios.unlistable Scenarios.here Fs.EACCES
                Scenarios.only_css Scenarios.here ["style.css"]
                eq_refl eq_refl eq_refl eq_refl eq_refl eq_refl eq_refl)
      as (_ & _ & _ & _ & _ & Hm & He).
    split; [exact Hm | exact He].
  - destruct (unreadable_assets_as_empty
                Scenarios.assets_is_file Scenarios.here Fs.ENOTDIR
                Scenarios.only_css Scenarios.here ["style.css"]
                eq_refl eq_refl eq_refl eq_refl eq_refl eq_refl eq_refl)
      as (_ & Hm & _).
    exact Hm.
Defined.

(** C5.  Once [dist] and [dist/index.html] are found, the check on the
    assets listing succeeds (the run exits 0 and reports nothing on the
    error stream) exactly when some entry name of the listing is a string
    followed by the three characters [".js"], compared exactly; otherwise
    the run fails with the line
    ["dist/assets is missing bundled JavaScript output"].  Names such as
    ["Main.JS"] and [".jsx"] do not end in the suffix; ["main.abc123.js"]
    does. *)
Theorem assets_check_iff_js_suffix (root : Fs.node) (dir : string) :
  Fs.accessible root (distDir (boot root dir)) = true ->
  Fs.accessible root (htmlPath (boot root dir)) = true ->
  (exit_status (run (boot root dir)) = 0%Z
   <-> exists name stem,
         In name (listed (boot root dir)) /\ name = stem ++ ".js")
  /\ (stderr (run (boot root dir)) = []
      <-> exists name stem,
            In name (listed (boot root dir)) /\ name = stem ++ ".js")
  /\ ((forall name stem,
          In name (listed (boot root dir)) -> name <> stem ++ ".js") ->
      stderr (run (boot root dir))
      = ["dist/assets is missing bundled JavaScript output"]
      /\ exit_status (run (boot root dir)) <> 0%Z)
  /\ JsString.endsWith "Main.JS" ".js" = false
  /\ JsString.endsWith ".jsx" ".js" = false
  /\ JsString.endsWith "main.abc123.js" ".js" = true.
Proof.
  intros Hd Hh.
  assert (Hiff := has_js_iff (listed (boot root dir))).
  destruct (has_js (listed (boot root dir))) eqn:Hjs.
  - rewrite (run_ok (boot root dir) Hd Hh Hjs). cbn.
    assert (Hex := proj1 Hiff eq_refl).
    split; [split; [intros _; exact Hex | reflexivity] |].
    split; [split; [intros _; exact Hex | reflexivity] |].
    split; [|repeat split].
    intros Hno. exfalso. destruct Hex as [name [stem [Hin Heq]]].
    exact (Hno name stem Hin Heq).
  - rewrite (run_no_js (boot root dir) Hd Hh Hjs). cbn.
    assert (Hnex : ~ exists name stem,
                     In name (listed (boot root dir)) /\ name = stem ++ ".js")
      by (intros Hex; apply Hiff in Hex; discriminate).
    split; [split; [discriminate | intros Hex; contradiction] |].
    split; [split; [discriminate | intros Hex; contradiction] |].
    split; [|repeat split].
    intros _. split; [reflexivity | discriminate].
Qed.

Lemma assets_check_iff_js_suffix_witness :
  (exit_status (run (boot Scenarios.complete Scenarios.here)) = 0%Z
   <-> exists name stem,
         In name (listed (boot Scenarios.complete Scenarios.here))
         /\ name = stem ++ ".js")
  /\ (exit_status (run (boot Scenarios.near_misses Scenarios.here)) = 0%Z
      <-> exists name stem,
            In name (listed (boot Scenarios.near_misses Scenarios.here))
            /\ name = stem ++ ".js").
Proof.
  split.
  - apply (assets_check_iff_js_suffix Scenarios.complete Scenarios.here);
      reflexivity.
  - apply (assets_check_iff_js_suffix Scenarios.near_misses Scenarios.here);
      reflexivity.
Defined.

(** The near misses of C5, run: neither ["Main.JS"] nor ["view.jsx"]
    satisfies the check. *)
Example near_misses_fail :
  run (boot Scenarios.near_misses Scenarios.here)
  = failed (boot Scenarios.near_misses Scenarios.here)
           [Fs.OpAccess "/work/dist"; Fs.OpAccess "/work/dist/index.html";
            Fs.OpReaddir "/work/dist/assets"]
           "dist/assets is missing bundled JavaScript output".
Proof. reflexivity. Qed.

(** The checks are decided in a fixed order; every run ends in exactly one
    of four ways. *)
Lemma run_cases (w : World) :
  (Fs.accessible (fs w) (distDir w) = false
   /\ run w = failed w [Fs.OpAccess (distDir w)]
                     (missing "dist directory" (distDir w)))
  \/ (Fs.accessible (fs w) (distDir w) = true
      /\ Fs.accessible (fs w) (htmlPath w) = false
      /\ run w = failed w [Fs.OpAccess (distDir w); Fs.OpAccess (htmlPath w)]
                        (missing "dist/index.html" (htmlPath w)))
  \/ (Fs.accessible (fs w) (distDir w) = true
      /\ Fs.accessible (fs w) (htmlPath w) = true
      /\ has_js (listed w) = false
      /\ run w = failed w [Fs.OpAccess (distDir w); Fs.OpAccess (htmlPath w);
                           Fs.OpReaddir (assetsDir w)]
                        assets_message)
  \/ (Fs.accessible (fs w) (distDir w) = true
      /\ Fs.accessible (fs w) (htmlPath w) = true
      /\ has_js (listed w) = true
      /\ run w = passed w (listed w)).
Proof.
  destruct (Fs.accessible (fs w) (distDir w)) eqn:Hd.
  - destruct (Fs.accessible (fs w) (htmlPath w)) eqn:Hh.
    + destruct (has_js (listed w)) eqn:Hjs.
      * do 3 right. auto using run_ok.
      * do 2 right. left. auto using run_no_js.
    + right. left. auto using run_no_html.
  - left. auto using run_no_dist.
Qed.

(** C6.  On every failing run nothing is printed to standard output and
    exactly one line is written to the error stream.  The line is
    ["Missing dist directory at <path>"] if [dist] does not resolve,
    whatever else is wrong; else ["Missing dist/index.html at <path>"] if
    the entry file does not resolve, whatever the assets are; else the
    assets message, the listing having no entry ending in [".js"]. *)
Theorem one_failure_first_check (root : Fs.node) (dir : string) :
  exit_status (run (boot root dir)) <> 0%Z ->
  stdout (run (boot root dir)) = []
  /\ length (stderr (run (boot root dir))) = 1
  /\ ((Fs.accessible root (distDir (boot root dir)) = false
       /\ stderr (run (boot root dir))
          = ["Missing dist directory at " ++ distDir (boot root dir)])
      \/ (Fs.accessible root (distDir (boot root dir)) = true
          /\ Fs.accessible root (htmlPath (boot root dir)) = false
          /\ stderr (run (boot root dir))
             = ["Missing dist/index.html at " ++ htmlPath (boot root dir)])
      \/ (Fs.accessible root (distDir (boot root dir)) = true
          /\ Fs.accessible root (htmlPath (boot root dir)) = true
          /\ has_js (listed (boot root dir)) = false
          /\ stderr (run (boot root dir))
             = ["dist/assets is missing bundled JavaScript output"])).
Proof.
  intros Hfail.
  destruct (run_cases (boot root dir))
    as [[Hd E] | [(Hd & Hh & E) | [(Hd & Hh & Hjs & E) | (Hd & Hh & Hjs & E)]]];
    rewrite E in *; cbn in *.
  - repeat split. left. split; [exact Hd | reflexivity].
  - repeat split. right; left. repeat split; assumption.
  - repeat split. right; right. repeat split; assumption.
  - now destruct Hfail.
Qed.

Lemma one_failure_first_check_witness :
  Fs.accessible Scenarios.no_dist "/work/dist/index.html" = false
  /\ has_js (listed (boot Scenarios.no_dist Scenarios.here)) = false
  /\ stdout (run (boot Scenarios.no_dist Scenarios.here)) = []
  /\ length (stderr (run (boot Scenarios.no_dist Scenarios.here))) = 1.
Proof.
  assert (Hfail : exit_status (run (boot Scenarios.no_dist Scenarios.here)) <> 0%Z)
    by (vm_compute; discriminate).
  destruct (one_failure_first_check Scenarios.no_dist Scenarios.here Hfail)
    as (Hout & Hlen & _).
  split; [reflexivity|]. split; [reflexivity|]. split; [exact Hout | exact Hlen].
Defined.

(** Several things wrong at once in C6's witness: one message, about the
    first. *)
Example no_dist_reports_dist_only :
  stderr (run (boot Scenarios.no_dist Scenarios.here))
  = ["Missing dist directory at /work/dist"].
Proof. reflexivity. Qed.

(** A run leaves the file system and the working directory as it found
    them. *)
Lemma run_preserves_fs (w : World) : fs (run w) = fs w /\ cwd (run w) = cwd w.
Proof. exact (read_only_script w). Qed.

(** C7.  A run does not change the file system: the tree after the run is
    the tree before it.  Hence a second run, started afresh in the same
    directory on what the first run left, ends with the same exit status,
    the same standard output and the same error stream as the first. *)
Theorem run_twice_same (root : Fs.node) (dir : string) :
  fs (run (boot root dir)) = root
  /\ exit_status (run (boot (fs (run (boot root dir))) dir))
     = exit_status (run (boot root dir))
  /\ stdout (run (boot (fs (run (boot root dir))) dir))
     = stdout (run (boot root dir))
  /\ stderr (run (boot (fs (run (boot root dir))) dir))
     = stderr (run (boot root dir)).
Proof.
  destruct (run_preserves_fs (boot root dir)) as [Hfs _].
  rewrite Hfs. cbn. repeat split.
Qed.

(** C8.  Whichever of the three checks fails, the exit status is 1. *)
Theorem failure_status_is_one (root : Fs.node) (dir : string) :
  Fs.accessible root (distDir (boot root dir)) = false
  \/ Fs.accessible root (htmlPath (boot root dir)) = false
  \/ has_js (listed (boot root dir)) = false ->
  exit_status (run (boot root dir)) = 1%Z
  /\ exitCode (run (boot root dir)) = Some 1%Z.
Proof.
  intros Hbad.
  destruct (run_cases (boot root dir))
    as [[Hd E] | [(Hd & Hh & E) | [(Hd & Hh & Hjs & E) | (Hd & Hh & Hjs & E)]]];
    rewrite E; cbn in *; try (split; reflexivity).
  destruct Hbad as [H | [H | H]]; congruence.
Qed.

Lemma failure_status_is_one_witness :
  exit_status (run (boot Scenarios.no_dist Scenarios.here)) = 1%Z
  /\ exit_status (run (boot Scenarios.no_html Scenarios.here)) = 1%Z
  /\ exit_status (run (boot Scenarios.only_css Scenarios.here)) = 1%Z.
Proof.
  split; [|split].
  - apply (failure_status_is_one Scenarios.no_dist Scenarios.here).
    left. reflexivity.
  - apply (failure_status_is_one Scenarios.no_html Scenarios.here).
    right; left. reflexivity.
  - apply (failure_status_is_one Scenarios.only_css Scenarios.here).
    right; right. reflexivity.
Defined.

(** Conversely, a status other than 0 is 1. *)
Lemma nonzero_status_is_one (root : Fs.node) (dir : string) :
  exit_status (run (boot root dir)) <> 0%Z ->
  exit_status (run (boot root dir)) = 1%Z.
Proof.
  intros Hfail.
  destruct (run_cases (boot root dir))
    as [[_ E] | [(_ & _ & E) | [(_ & _ & _ & E) | (_ & _ & _ & E)]]];
    rewrite E in *; cbn in *; try reflexivity.
  now destruct Hfail.
Qed.

(** The listing of a readable directory is the names of its entries,
    whatever the entries are. *)
Lemma listed_dir (w : World) (p : Fs.perms) (es : list (string * Fs.node)) :
  Fs.lookup (fs w) (assetsDir w) = inr (Fs.Dir p es) ->
  Fs.can_read p = true ->
  listed w = map fst es.
Proof.
  intros Hl Hr. unfold listed, Fs.readdir. now rewrite Hl, Hr.
Qed.

(** C9.  The check on the assets looks at names only.  If the assets
    directory has an entry whose name ends in [".js"], then whatever that
    entry is (a regular file, or a directory with any content) the run
    passes and lists it.  So a subdirectory named ["bundle.js"] and an
    entry named just [".js"] both satisfy the check. *)
Theorem assets_check_names_only
    (root : Fs.node) (dir : string) (p : Fs.perms)
    (es : list (string * Fs.node)) (name : string) (kind : Fs.node) :
  Fs.accessible root (distDir (boot root dir)) = true ->
  Fs.accessible root (htmlPath (boot root dir)) = true ->
  Fs.lookup root (assetsDir (boot root dir)) = inr (Fs.Dir p es) ->
  Fs.can_read p = true ->
  In (name, kind) es ->
  JsString.endsWith name ".js" = true ->
  exit_status (run (boot root dir)) = 0%Z
  /\ stderr (run (boot root dir)) = []
  /\ In ("  - " ++ name) (stdout (run (boot root dir))).
Proof.
  intros Hd Hh Hl Hr Hin Hjs.
  assert (Hls : listed (boot root dir) = map fst es)
    by exact (listed_dir (boot root dir) p es Hl Hr).
  assert (Hname : In name (map fst es))
    by exact (in_map fst es (name, kind) Hin).
  rewrite (run_ok (boot root dir) Hd Hh);
    rewrite Hls; [|exact (has_js_intro _ _ Hname Hjs)].
  cbn. repeat split. right.
  exact (in_map (fun asset => "  - " ++ asset) _ _ Hname).
Qed.

Lemma assets_check_names_only_witness :
  (exit_status (run (boot Scenarios.js_is_dir Scenarios.here)) = 0%Z
   /\ stderr (run (boot Scenarios.js_is_dir Scenarios.here)) = []
   /\ In "  - bundle.js" (stdout (run (boot Scenarios.js_is_dir Scenarios.here))))
  /\ (exit_status (run (boot Scenarios.hidden_js Scenarios.here)) = 0%Z
      /\ stderr (run (boot Scenarios.hidden_js Scenarios.here)) = []
      /\ In "  - .js" (stdout (run (boot Scenarios.hidden_js Scenarios.here)))).
Proof.
  split.
  - apply (assets_check_names_only
             Scenarios.js_is_dir Scenarios.here Fs.rwx
             [("bundle.js", Fs.Dir Fs.rwx [])] "bundle.js" (Fs.Dir Fs.rwx [])).
    + reflexivity.
    + reflexivity.
    + reflexivity.
    + reflexivity.
    + left. reflexivity.
    + reflexivity.
  - apply (assets_check_names_only
             Scenarios.hidden_js Scenarios.here Fs.rwx
             [(".js", Fs.File)] ".js" Fs.File).
    + reflexivity.
    + reflexivity.
    + reflexivity.
    + reflexivity.
    + left. reflexivity.
    + reflexivity.
Defined.

(** With a regular file in the place of [dist], the access check of
    [dist] succeeds and the one of [dist/index.html] fails: the run ends
    there. *)
Lemma dist_file_stops_at_html (root : Fs.node) (dir : string) :
  Fs.lookup root (distDir (boot root dir)) = inr Fs.File ->
  run (boot root dir)
  = failed (boot root dir)
           [Fs.OpAccess (distDir (boot root dir));
            Fs.OpAccess (htmlPath (boot root dir))]
           (missing "dist/index.html" (htmlPath (boot root dir))).
Proof.
  intros Hf. apply run_no_html.
  - apply accessible_iff. exists Fs.File. exact Hf.
  - apply beneath_file; [exact Hf | discriminate].
Qed.

(** C10, as stated, fails for a regular file named [dist]: such a file
    passes the check of the output directory, but the run then stops at
    the check of the entry file; the assets directory is never read and
    the exit status is never 0.  Shown on the working directory whose
    only entry is a regular file [dist], and for every working directory
    where [dist] is a regular file. *)
Lemma dist_file_never_reaches_assets :
  run (boot Scenarios.dist_is_file Scenarios.here)
  = failed (boot Scenarios.dist_is_file Scenarios.here)
           [Fs.OpAccess "/work/dist"; Fs.OpAccess "/work/dist/index.html"]
           "Missing dist/index.html at /work/dist/index.html"
  /\ ~ (exists root dir,
          Fs.lookup root (distDir (boot root dir)) = inr Fs.File
          /\ (In (Fs.OpReaddir (assetsDir (boot root dir)))
                 (trace (run (boot root dir)))
              \/ exit_status (run (boot root dir)) = 0%Z)).
Proof.
  split; [reflexivity|].
  intros (root & dir & Hf & Hreach).
  rewrite (dist_file_stops_at_html root dir Hf) in Hreach. cbn in Hreach.
  destruct Hreach as [[H | [H | []]] | H]; discriminate.
Qed.

(** C10, amended.  The checks of [dist] and of [dist/index.html] test
    that the path resolves, not what it resolves to.  Whatever is found at
    [dist], the check of the output directory passes and the entry file is
    checked next; if it is a regular file, the run stops at that second
    check with the message about [dist/index.html].  Whatever is found at
    [dist/index.html] (a directory for one) the check of the entry file
    passes, the assets directory is read, and the run exits 0 when the
    listing has an entry ending in [".js"]. *)
Theorem checks_test_access_only
    (root : Fs.node) (dir : string) (at_dist : Fs.node) :
  Fs.lookup root (distDir (boot root dir)) = inr at_dist ->
  (exists rest,
     trace (run (boot root dir))
     = Fs.OpAccess (distDir (boot root dir))
       :: Fs.OpAccess (htmlPath (boot root dir)) :: rest)
  /\ (at_dist = Fs.File ->
      stderr (run (boot root dir))
      = ["Missing dist/index.html at " ++ htmlPath (boot root dir)]
      /\ exit_status (run (boot root dir)) = 1%Z)
  /\ (forall at_html,
        Fs.lookup root (htmlPath (boot root dir)) = inr at_html ->
        In (Fs.OpReaddir (assetsDir (boot root dir)))
           (trace (run (boot root dir)))
        /\ (has_js (listed (boot root dir)) = true ->
            exit_status (run (boot root dir)) = 0%Z)).
Proof.
  intros Hdist.
  assert (Hd : Fs.accessible root (distDir (boot root dir)) = true)
    by (apply accessible_iff; now exists at_dist).
  split; [|split].
  - destruct (run_cases (boot root dir))
      as [[Hd' E] | [(_ & _ & E) | [(_ & _ & _ & E) | (_ & _ & _ & E)]]];
      [cbn in Hd'; congruence | | | ]; rewrite E; cbn; eauto.
  - intros ->. rewrite (dist_file_stops_at_html root dir Hdist).
    split; reflexivity.
  - intros at_html Hhtml.
    assert (Hh : Fs.accessible root (htmlPath (boot root dir)) = true)
      by (apply accessible_iff; now exists at_html).
    destruct (has_js (listed (boot root dir))) eqn:Hjs.
    + rewrite (run_ok (boot root dir) Hd Hh Hjs). cbn. auto.
    + rewrite (run_no_js (boot root dir) Hd Hh Hjs). cbn.
      split; [auto | discriminate].
Qed.

Lemma checks_test_access_only_witness :
  (stderr (run (boot Scenarios.dist_is_file Scenarios.here))
   = ["Missing dist/index.html at /work/dist/index.html"]
   /\ exit_status (run (boot Scenarios.dist_is_file Scenarios.here)) = 1%Z)
  /\ (Fs.lookup Scenarios.html_is_dir "/work/dist/index.html"
      = inr (Fs.Dir Fs.rwx [])
      /\ In (Fs.OpReaddir "/work/dist/assets")
            (trace (run (boot Scenarios.html_is_dir Scenarios.here)))
      /\ exit_status (run (boot Scenarios.html_is_dir Scenarios.here)) = 0%Z).
Proof.
  split.
  - destruct (checks_test_access_only
                Scenarios.dist_is_file Scenarios.here Fs.File eq_refl)
      as (_ & Hfile & _).
    exact (Hfile eq_refl).
  - destruct (checks_test_access_only
                Scenarios.html_is_dir Scenarios.here
                (Fs.Dir Fs.rwx [("index.html", Fs.Dir Fs.rwx []);
                                ("assets", Fs.Dir Fs.rwx [("app.js", Fs.File)])])
                eq_refl)
      as (_ & _ & Hhtml).
    destruct (Hhtml (Fs.Dir Fs.rwx []) eq_refl) as [Hread Hpass].
    split; [reflexivity|]. split; [exact Hread | exact (Hpass eq_refl)].
Defined.

(* ================================================================== *)
(** ** Further properties of the script *)

(** When the assets directory cannot be read, the test on [assets]
    fails. *)
Lemma has_js_listed_readable (w : World) :
  has_js (listed w) = true ->
  exists names, Fs.readdir (fs w) (assetsDir w) = inr names /\ listed w = names.
Proof.
  unfold listed. destruct (Fs.readdir (fs w) (assetsDir w)) as [e|names].
  - discriminate.
  - intros _. exists names. split; reflexivity.
Qed.

(** X1.  The gate is sound: a run exits with status 0 only if [dist] and
    [dist/index.html] resolve and the assets directory could really be
    listed, with some name in the listing ending in [".js"]; the run then
    printed the summary of that listing and nothing on the error
    stream. *)
Theorem exit_zero_only_if_complete (root : Fs.node) (dir : string) :
  exit_status (run (boot root dir)) = 0%Z ->
  Fs.accessible root (distDir (boot root dir)) = true
  /\ Fs.accessible root (htmlPath (boot root dir)) = true
  /\ (exists names,
        Fs.readdir root (assetsDir (boot root dir)) = inr names
        /\ (exists name stem, In name names /\ name = stem ++ ".js")
        /\ stdout (run (boot root dir)) = summary names)
  /\ stderr (run (boot root dir)) = [].
Proof.
  intros Hzero.
  destruct (run_cases (boot root dir))
    as [[Hd E] | [(Hd & Hh & E) | [(Hd & Hh & Hjs & E) | (Hd & Hh & Hjs & E)]]];
    rewrite E in *; cbn in Hzero; try discriminate.
  destruct (has_js_listed_readable _ Hjs) as (names & Hls & Hl).
  cbn in Hd, Hh, Hls. rewrite Hl in *.
  split; [exact Hd|]. split; [exact Hh|]. split; [|reflexivity].
  exists names. split; [exact Hls|]. split; [|reflexivity].
  apply has_js_iff. exact Hjs.
Qed.

Lemma exit_zero_only_if_complete_witness :
  Fs.accessible Scenarios.complete "/work/dist" = true
  /\ Fs.accessible Scenarios.complete "/work/dist/index.html" = true
  /\ stderr (run (boot Scenarios.complete Scenarios.here)) = [].
Proof.
  destruct (exit_zero_only_if_complete Scenarios.complete Scenarios.here eq_refl)
    as (Hd & Hh & _ & He).
  split; [exact Hd|]. split; [exact Hh | exact He].
Defined.

(** X2.  A run writes to exactly one of the two streams: to standard
    output when and only when it exits with status 0, to the error stream
    when and only when it does not. *)
Theorem one_stream_per_run (root : Fs.node) (dir : string) :
  (exit_status (run (boot root dir)) = 0%Z
   <-> stderr (run (boot root dir)) = [])
  /\ (exit_status (run (boot root dir)) = 0%Z
      <-> stdout (run (boot root dir)) <> [])
  /\ (stdout (run (boot root dir)) = [] \/ stderr (run (boot root dir)) = []).
Proof.
  destruct (run_cases (boot root dir))
    as [[_ E] | [(_ & _ & E) | [(_ & _ & _ & E) | (_ & _ & _ & E)]]];
    rewrite E; cbn.
  1-3: split; [split; discriminate|];
       split; [split; [discriminate | intros H; now destruct H] | left; reflexivity].
  split; [split; reflexivity|].
  split; [split; [discriminate | reflexivity] | right; reflexivity].
Qed.

(** X3.  The file-system operations of a run are an initial part of the
    sequence access [dist], access [dist/index.html], read [dist/assets],
    and there is at least one.  In particular the only directory ever
    read is [dist/assets], and it is read only after both access checks
    succeeded. *)
Theorem trace_within_three_checks (root : Fs.node) (dir : string) :
  (exists rest,
     [Fs.OpAccess (distDir (boot root dir));
      Fs.OpAccess (htmlPath (boot root dir));
      Fs.OpReaddir (assetsDir (boot root dir))]
     = (trace (run (boot root dir)) ++ rest)%list)
  /\ trace (run (boot root dir)) <> []
  /\ (forall path,
        In (Fs.OpReaddir path) (trace (run (boot root dir))) ->
        path = assetsDir (boot root dir)
        /\ Fs.accessible root (distDir (boot root dir)) = true
        /\ Fs.accessible root (htmlPath (boot root dir)) = true).
Proof.
  destruct (run_cases (boot root dir))
    as [[Hd E] | [(Hd & Hh & E) | [(Hd & Hh & Hjs & E) | (Hd & Hh & Hjs & E)]]];
    rewrite E; cbn in *.
  - split; [eexists; reflexivity|]. split; [discriminate|].
    intros path [H | []]; discriminate.
  - split; [eexists; reflexivity|]. split; [discriminate|].
    intros path [H | [H | []]]; discriminate.
  - split; [exists []; reflexivity|]. split; [discriminate|].
    intros path [H | [H | [H | []]]]; try discriminate.
    injection H as <-. auto.
  - split; [exists []; reflexivity|]. split; [discriminate|].
    intros path [H | [H | [H | []]]]; try discriminate.
    injection H as <-. auto.
Qed.

(** X4.  [main] settles in one of four ways only: it resolves, or it
    rejects with one of its own three errors.  The system error of a
    failed [access] or [readdir] never escapes it, whatever the cause of
    the failure; and the top-level handler leaves no rejection
    unhandled. *)
Theorem main_rejects_with_own_errors (w : World) :
  (fst (main w) = Resolved tt
   \/ fst (main w) = Rejected (JsError ("Missing dist directory at " ++ distDir w))
   \/ fst (main w) = Rejected (JsError ("Missing dist/index.html at " ++ htmlPath w))
   \/ fst (main w)
      = Rejected (JsError "dist/assets is missing bundled JavaScript output"))
  /\ (forall code syscall path,
        fst (main w) <> Rejected (SystemError code syscall path))
  /\ fst (script w) = Resolved tt.
Proof.
  destruct (Fs.accessible (fs w) (distDir w)) eqn:Hd;
    [destruct (Fs.accessible (fs w) (htmlPath w)) eqn:Hh;
     [destruct (has_js (listed w)) eqn:Hjs|]|].
  - unfold script, catch. rewrite (main_ok w Hd Hh Hjs). cbn.
    split; [auto|]. split; [discriminate | reflexivity].
  - unfold script, catch. rewrite (main_no_js w Hd Hh Hjs). cbn.
    split; [auto|]. split; [discriminate | reflexivity].
  - unfold script, catch. rewrite (main_no_html w Hd Hh). cbn.
    split; [auto|]. split; [discriminate | reflexivity].
  - unfold script, catch. rewrite (main_no_dist w Hd). cbn.
    split; [auto|]. split; [discriminate | reflexivity].
Qed.

(** X5.  The line on the error stream tells which check failed: it
    starts with ["Missing dist directory"] exactly when [dist] does not
    resolve, with ["Missing dist/index.html"] exactly when [dist] resolves
    and the entry file does not, and it is the assets message exactly
    when both resolve and the listing has no name ending in [".js"]. *)
Theorem message_identifies_check (root : Fs.node) (dir : string) :
  (Fs.accessible root (distDir (boot root dir)) = false
   <-> exists line,
         stderr (run (boot root dir)) = [line]
         /\ prefix "Missing dist directory" line = true)
  /\ (Fs.accessible root (distDir (boot root dir)) = true
      /\ Fs.accessible root (htmlPath (boot root dir)) = false
      <-> exists line,
            stderr (run (boot root dir)) = [line]
            /\ prefix "Missing dist/index.html" line = true)
  /\ (Fs.accessible root (distDir (boot root dir)) = true
      /\ Fs.accessible root (htmlPath (boot root dir)) = true
      /\ has_js (listed (boot root dir)) = false
      <-> stderr (run (boot root dir))
          = ["dist/assets is missing bundled JavaScript output"]).
Proof.
  destruct (run_cases (boot root dir))
    as [[Hd E] | [(Hd & Hh & E) | [(Hd & Hh & Hjs & E) | (Hd & Hh & Hjs & E)]]];
    rewrite E; cbn in *; rewrite ?Hd, ?Hh, ?Hjs.
  - split; [|split]; split.
    + intros _. eexists. split; reflexivity.
    + reflexivity.
    + intros [H _]. discriminate.
    + intros (line & H & Hp). injection H as <-. discriminate.
    + intros (H & _). discriminate.
    + discriminate.
  - split; [|split]; split.
    + discriminate.
    + intros (line & H & Hp). injection H as <-. discriminate.
    + intros _. eexists. split; reflexivity.
    + auto.
    + intros (_ & H & _). discriminate.
    + discriminate.
  - split; [|split]; split.
    + discriminate.
    + intros (line & H & Hp). injection H as <-. discriminate.
    + intros [_ H]. discriminate.
    + intros (line & H & Hp). injection H as <-. discriminate.
    + reflexivity.
    + auto.
  - split; [|split]; split.
    + discriminate.
    + intros (line & H & Hp). discriminate.
    + intros [_ H]. discriminate.
    + intros (line & H & Hp). discriminate.
    + intros (_ & _ & H). discriminate.
    + discriminate.
Qed.

(** The test on [assets] does not depend on the order of the listing. *)
Lemma has_js_permutation (names names' : list string) :
  Permutation names names' -> has_js names = has_js names'.
Proof.
  intros Hp. apply Bool.eq_true_iff_eq. unfold has_js. rewrite !some_iff.
  split; intros [name [Hin Hjs]]; exists name; split; try exact Hjs.
  - exact (Permutation_in name Hp Hin).
  - exact (Permutation_in name (Permutation_sym Hp) Hin).
Qed.

(** More entries never make the test on [assets] fail. *)
Lemma has_js_incl (names names' : list string) :
  incl names names' -> has_js names = true -> has_js names' = true.
Proof.
  unfold has_js. rewrite !some_iff. intros Hi [name [Hin Hjs]].
  exists name. split; [exact (Hi name Hin) | exact Hjs].
Qed.

(** How a run ends once both access checks have passed, as a function of
    the listing. *)
Lemma run_after_access_checks (w : World) :
  Fs.accessible (fs w) (distDir w) = true ->
  Fs.accessible (fs w) (htmlPath w) = true ->
  run w = if has_js (listed w)
          then passed w (listed w)
          else failed w [Fs.OpAccess (distDir w); Fs.OpAccess (htmlPath w);
                         Fs.OpReaddir (assetsDir w)]
                      assets_message.
Proof.
  intros Hd Hh. destruct (has_js (listed w)) eqn:Hjs.
  - exact (run_ok w Hd Hh Hjs).
  - exact (run_no_js w Hd Hh Hjs).
Qed.

(** X6.  The verdict does not depend on the order in which the assets
    directory enumerates its entries: two working directories that pass
    the access checks and whose listings are rearrangements of one another
    end with the same exit status and the same error stream, and their
    standard outputs are rearrangements of one another. *)
Theorem listing_order_irrelevant
    (root : Fs.node) (dir : string) (names : list string)
    (root' : Fs.node) (dir' : string) (names' : list string) :
  Fs.accessible root (distDir (boot root dir)) = true ->
  Fs.accessible root (htmlPath (boot root dir)) = true ->
  Fs.readdir root (assetsDir (boot root dir)) = inr names ->
  Fs.accessible root' (distDir (boot root' dir')) = true ->
  Fs.accessible root' (htmlPath (boot root' dir')) = true ->
  Fs.readdir root' (assetsDir (boot root' dir')) = inr names' ->
  Permutation names names' ->
  exit_status (run (boot root dir)) = exit_status (run (boot root' dir'))
  /\ stderr (run (boot root dir)) = stderr (run (boot root' dir'))
  /\ Permutation (stdout (run (boot root dir))) (stdout (run (boot root' dir'))).
Proof.
  intros Hd Hh Hls Hd' Hh' Hls' Hp.
  rewrite (run_after_access_checks (boot root dir) Hd Hh).
  rewrite (run_after_access_checks (boot root' dir') Hd' Hh').
  rewrite (listed_readdir (boot root dir) names Hls).
  rewrite (listed_readdir (boot root' dir') names' Hls').
  rewrite <- (has_js_permutation names names' Hp).
  destruct (has_js names); cbn.
  - repeat split. apply perm_skip. apply Permutation_map. exact Hp.
  - repeat split. apply perm_nil.
Qed.

Lemma listing_order_irrelevant_witness :
  exit_status (run (boot Scenarios.complete Scenarios.here))
  = exit_status (run (boot Scenarios.complete_swapped Scenarios.here))
  /\ stderr (run (boot Scenarios.complete Scenarios.here))
     = stderr (run (boot Scenarios.complete_swapped Scenarios.here))
  /\ Permutation
       (stdout (run (boot Scenarios.complete Scenarios.here)))
       (stdout (run (boot Scenarios.complete_swapped Scenarios.here))).
Proof.
  apply (listing_order_irrelevant
           Scenarios.complete Scenarios.here
           ["main.abc123.js"; "main.abc123.css"]
           Scenarios.complete_swapped Scenarios.here
           ["main.abc123.css"; "main.abc123.js"]);
    try reflexivity.
  apply perm_swap.
Defined.

(** X7.  Further entries in the assets directory never turn a passing
    run into a failing one: if a run passes, so does the run in any
    working directory that passes the access checks and whose listing has
    at least the same names. *)
Theorem more_assets_still_pass
    (root : Fs.node) (dir : string) (names : list string)
    (root' : Fs.node) (dir' : string) (names' : list string) :
  Fs.readdir root (assetsDir (boot root dir)) = inr names ->
  exit_status (run (boot root dir)) = 0%Z ->
  Fs.accessible root' (distDir (boot root' dir')) = true ->
  Fs.accessible root' (htmlPath (boot root' dir')) = true ->
  Fs.readdir root' (assetsDir (boot root' dir')) = inr names' ->
  incl names names' ->
  exit_status (run (boot root' dir')) = 0%Z
  /\ stdout (run (boot root' dir')) = summary names'.
Proof.
  intros Hls Hzero Hd' Hh' Hls' Hi.
  assert (Hjs : has_js names = true).
  { destruct (run_cases (boot root dir))
      as [[_ E] | [(_ & _ & E) | [(_ & _ & _ & E) | (_ & _ & Hjs & E)]]];
      rewrite E in Hzero; cbn in Hzero; try discriminate.
    now rewrite (listed_readdir (boot root dir) names Hls) in Hjs. }
  rewrite (run_after_access_checks (boot root' dir') Hd' Hh').
  rewrite (listed_readdir (boot root' dir') names' Hls').
  rewrite (has_js_incl names names' Hi Hjs). split; reflexivity.
Qed.

Lemma more_assets_still_pass_witness :
  exit_status (run (boot Scenarios.complete Scenarios.here)) = 0%Z
  /\ stdout (run (boot Scenarios.complete Scenarios.here))
     = summary ["main.abc123.js"; "main.abc123.css"].
Proof.
  apply (more_assets_still_pass
           Scenarios.only_js Scenarios.here ["main.abc123.js"]
           Scenarios.complete Scenarios.here
           ["main.abc123.js"; "main.abc123.css"]);
    try reflexivity.
  intros name [<- | []]. left. reflexivity.
Defined.

(** What the three checks see is decided by what is found at [dist]. *)
Lemma checks_see_dist_only (w w' : World) :
  Fs.lookup (fs w) (distDir w) = Fs.lookup (fs w') (distDir w') ->
  Fs.accessible (fs w) (distDir w) = Fs.accessible (fs w') (distDir w')
  /\ Fs.accessible (fs w) (htmlPath w) = Fs.accessible (fs w') (htmlPath w')
  /\ listed w = listed w'.
Proof.
  intros H. split; [|split].
  - unfold Fs.accessible, Fs.access. now rewrite H.
  - unfold Fs.accessible, Fs.access, htmlPath.
    now rewrite !lookup_resolve, H.
  - unfold listed, Fs.readdir, assetsDir.
    now rewrite !lookup_resolve, H.
Qed.

(** X8.  The verdict depends on nothing but what is found at [dist]: two
    runs, in whatever directories of whatever file systems, that find the
    same thing (or the same failure) at their [dist] end with the same
    exit status and the same standard output, and with as many lines on
    the error stream; started in directories of the same name, with the
    same error stream too. *)
Theorem verdict_depends_on_dist_only
    (root : Fs.node) (dir : string) (root' : Fs.node) (dir' : string) :
  Fs.lookup root (distDir (boot root dir))
  = Fs.lookup root' (distDir (boot root' dir')) ->
  exit_status (run (boot root dir)) = exit_status (run (boot root' dir'))
  /\ stdout (run (boot root dir)) = stdout (run (boot root' dir'))
  /\ length (stderr (run (boot root dir)))
     = length (stderr (run (boot root' dir')))
  /\ (dir = dir' ->
      stderr (run (boot root dir)) = stderr (run (boot root' dir'))).
Proof.
  intros H.
  destruct (checks_see_dist_only (boot root dir) (boot root' dir') H)
    as (Ed & Eh & El).
  destruct (run_cases (boot root dir))
    as [[Hd E] | [(Hd & Hh & E) | [(Hd & Hh & Hjs & E) | (Hd & Hh & Hjs & E)]]];
    rewrite E; rewrite ?Ed, ?Eh, ?El in *.
  - rewrite (run_no_dist (boot root' dir') Hd). cbn.
    repeat split. now intros ->.
  - rewrite (run_no_html (boot root' dir') Hd Hh). cbn.
    repeat split. now intros ->.
  - rewrite (run_no_js (boot root' dir') Hd Hh Hjs). cbn. repeat split.
  - rewrite (run_ok (boot root' dir') Hd Hh Hjs). cbn. repeat split.
Qed.

Lemma verdict_depends_on_dist_only_witness :
  exit_status (run (boot Scenarios.complete Scenarios.here))
  = exit_status (run (boot Scenarios.complete_at_root "/"))
  /\ stdout (run (boot Scenarios.complete Scenarios.here))
     = stdout (run (boot Scenarios.complete_at_root "/")).
Proof.
  destruct (verdict_depends_on_dist_only
              Scenarios.complete Scenarios.here
              Scenarios.complete_at_root "/" eq_refl)
    as (He & Ho & _).
  split; [exact He | exact Ho].
Defined.

(** X9.  The entry file is looked for beneath [dist], so it can only be
    found when [dist] is: the first check never changes the verdict, only
    the message.  A run exits with status 0 exactly when
    [dist/index.html] resolves and the listing has a name ending in
    [".js"]. *)
Theorem verdict_without_dist_check (root : Fs.node) (dir : string) :
  (Fs.accessible root (htmlPath (boot root dir)) = true ->
   Fs.accessible root (distDir (boot root dir)) = true)
  /\ (exit_status (run (boot root dir)) = 0%Z
      <-> Fs.accessible root (htmlPath (boot root dir)) = true
          /\ has_js (listed (boot root dir)) = true).
Proof.
  assert (Hsub : Fs.accessible root (htmlPath (boot root dir)) = true ->
                 Fs.accessible root (distDir (boot root dir)) = true).
  { intros Hh.
    destruct (Fs.accessible root (distDir (boot root dir))) eqn:Hd;
      [reflexivity|].
    unfold htmlPath in Hh.
    rewrite (beneath_missing root (distDir (boot root dir)) "index.html" Hd)
      in Hh.
    discriminate. }
  split; [exact Hsub|].
  destruct (run_cases (boot root dir))
    as [[Hd E] | [(Hd & Hh & E) | [(Hd & Hh & Hjs & E) | (Hd & Hh & Hjs & E)]]];
    rewrite E; cbn in *; split; try discriminate.
  - intros [Hh _]. apply Hsub in Hh. congruence.
  - intros [Hh' _]. congruence.
  - intros [_ Hjs']. congruence.
  - intros _. split; assumption.
  - reflexivity.
Qed.

Lemma verdict_without_dist_check_witness :
  Fs.accessible Scenarios.complete "/work/dist" = true
  /\ exit_status (run (boot Scenarios.complete Scenarios.here)) = 0%Z.
Proof.
  destruct (verdict_without_dist_check Scenarios.complete Scenarios.here)
    as [Hsub Hiff].
  split.
  - exact (Hsub eq_refl).
  - apply Hiff. split; reflexivity.
Defined.



